(** * Recipe platform backend: token lifecycle and subscription state

    A shallow embedding of the authentication and payment code of the
    backend (auth.controller.js, auth.middleware.js, user.model.js and
    payment.service.js) together with the properties its design text
    states about them.

    Layout:
    - [Sha2]           : the digests of Node's [crypto] module used by the code
    - [Json]           : [JSON.parse] / [JSON.stringify] on a fragment of JSON
    - the document store, its collections and the store monad
    - the User model methods, the auth middleware and the auth controller
    - the payment service
    - the properties, one section per component. *)

From Stdlib Require Import ZArith Ascii String List Bool Lia.
From stdpp Require Import base decidable option list gmap strings.
Import ListNotations.

Local Open Scope string_scope.
Local Open Scope list_scope.
Local Open Scope Z_scope.

(* ===================================================================== *)
(** ** SHA-2 (FIPS 180-4), generic in the word size                       *)
(* ===================================================================== *)

(** [crypto.createHash('sha256')] and [crypto.createHmac('sha512', key)]
    are library code; they are written out here so that digests of
    concrete inputs can be evaluated.  Words are [Z] reduced modulo
    [2^wbits]; bytes are [Z] in [0, 256). *)
Module Sha2.

Record variant := {
  wbits  : Z;             (* word size: 32 (SHA-256) or 64 (SHA-512) *)
  rounds : nat;           (* 64 or 80 *)
  bigS0  : Z * Z * Z;     (* rotations of the upper-case Sigma0 *)
  bigS1  : Z * Z * Z;
  smallS0 : Z * Z * Z;    (* rotation, rotation, shift of sigma0 *)
  smallS1 : Z * Z * Z
}.

Definition sha256_variant : variant :=
  {| wbits := 32; rounds := 64%nat;
     bigS0 := (2, 13, 22); bigS1 := (6, 11, 25);
     smallS0 := (7, 18, 3); smallS1 := (17, 19, 10) |}.

Definition sha512_variant : variant :=
  {| wbits := 64; rounds := 80%nat;
     bigS0 := (28, 34, 39); bigS1 := (14, 18, 41);
     smallS0 := (1, 8, 7); smallS1 := (19, 61, 6) |}.

(** The first primes, by trial division against the primes found so far. *)
Fixpoint primes_upto (fuel : nat) (c : Z) (found : list Z) : list Z :=
  match fuel with
  | O => found
  | S fuel' =>
      if forallb (fun p => negb (c mod p =? 0)) found
      then primes_upto fuel' (c + 1) (found ++ [c])
      else primes_upto fuel' (c + 1) found
  end.

Definition first_primes (n : nat) : list Z := take n (primes_upto 420 2 []).

(** Integer cube root, one result bit at a time from the top. *)
Fixpoint icbrt (bits : nat) (n r : Z) : Z :=
  match bits with
  | O => r
  | S b =>
      let r' := r + Z.shiftl 1 (Z.of_nat b) in
      icbrt b n (if r' * r' * r' <=? n then r' else r)
  end.

Section Variant.
  Variable v : variant.

Definition modulus : Z := Z.shiftl 1 (wbits v).
Definition wrap (x : Z) : Z := x mod modulus.
Definition wbytes : Z := wbits v / 8.
Definition block_bytes : Z := 16 * wbytes.

(** Initial hash value: fractional bits of the square roots of the
    first eight primes. *)
Definition initial_hash : list Z :=
  map (fun p => wrap (Z.sqrt (p * 2 ^ (2 * wbits v)))) (first_primes 8).

(** Round constants: fractional bits of the cube roots of the first
    [rounds] primes. *)
Definition round_constants : list Z :=
  map (fun p => wrap (icbrt (Z.to_nat (wbits v) + 3) (p * 2 ^ (3 * wbits v)) 0))
      (first_primes (rounds v)).

Definition rotr (n x : Z) : Z :=
  wrap (Z.lor (Z.shiftr x n) (Z.shiftl x (wbits v - n))).
Definition shr (n x : Z) : Z := Z.shiftr x n.

Definition Ch (x y z : Z) : Z :=
  Z.lxor (Z.land x y) (Z.land (modulus - 1 - x) z).
Definition Maj (x y z : Z) : Z :=
  Z.lxor (Z.lxor (Z.land x y) (Z.land x z)) (Z.land y z).

Definition Sigma (r : Z * Z * Z) (x : Z) : Z :=
  let '(a, b, c) := r in Z.lxor (Z.lxor (rotr a x) (rotr b x)) (rotr c x).
Definition sigma (r : Z * Z * Z) (x : Z) : Z :=
  let '(a, b, c) := r in Z.lxor (Z.lxor (rotr a x) (rotr b x)) (shr c x).

(** Big-endian conversions between bytes and numbers. *)
Definition be_to_Z (bs : list Z) : Z :=
  fold_left (fun acc b => acc * 256 + b) bs 0.

Fixpoint Z_to_be (n : nat) (x : Z) : list Z :=
  match n with
  | O => []
  | S n' => Z_to_be n' (x / 256) ++ [x mod 256]
  end.

Fixpoint chunks {A} (fuel : nat) (size : nat) (l : list A) : list (list A) :=
  match fuel with
  | O => []
  | S fuel' =>
      match l with
      | [] => []
      | _ => take size l :: chunks fuel' size (drop size l)
      end
  end.

(** Padding: a one bit, zeros, and the bit length on [2 * wbits] bits. *)
Definition pad (msg : list Z) : list Z :=
  let len := Z.of_nat (length msg) in
  let lenfield := 2 * wbytes in
  let zeros := (block_bytes - (len + 1 + lenfield) mod block_bytes) mod block_bytes in
  msg ++ [128] ++ repeat 0 (Z.to_nat zeros)
      ++ Z_to_be (Z.to_nat lenfield) (8 * len).

(** Message schedule, newest word first while it is built. *)
Fixpoint extend (n : nat) (rev_ws : list Z) : list Z :=
  match n with
  | O => rev_ws
  | S n' =>
      let nth_back i := nth i rev_ws 0 in
      let wt := wrap (sigma (smallS1 v) (nth_back 1%nat) + nth_back 6%nat
                      + sigma (smallS0 v) (nth_back 14%nat) + nth_back 15%nat) in
      extend n' (wt :: rev_ws)
  end.

Definition schedule (block : list Z) : list Z :=
  let ws := map be_to_Z (chunks 16 (Z.to_nat wbytes) block) in
  rev (extend (rounds v - 16) (rev ws)).

Definition round (st : list Z) (kw : Z * Z) : list Z :=
  match st with
  | [a; b; c; d; e; f; g; h] =>
      let t1 := h + Sigma (bigS1 v) e + Ch e f g + fst kw + snd kw in
      let t2 := Sigma (bigS0 v) a + Maj a b c in
      [wrap (t1 + t2); a; b; c; wrap (d + t1); e; f; g]
  | _ => st
  end.

Definition compress (K : list Z) (h : list Z) (block : list Z) : list Z :=
  let out := fold_left round (combine K (schedule block)) h in
  map (fun p => wrap (fst p + snd p)) (combine h out).

Definition digest (H0 K : list Z) (msg : list Z) : list Z :=
  let padded := pad msg in
  let blocks := chunks (length padded) (Z.to_nat block_bytes) padded in
  flat_map (Z_to_be (Z.to_nat wbytes)) (fold_left (compress K) blocks H0).
End Variant.

(** The tables of the two variants, evaluated once. *)
Definition H256 : list Z := Eval vm_compute in initial_hash sha256_variant.
Definition K256 : list Z := Eval vm_compute in round_constants sha256_variant.
Definition H512 : list Z := Eval vm_compute in initial_hash sha512_variant.
Definition K512 : list Z := Eval vm_compute in round_constants sha512_variant.

(** Strings are byte strings; digests are rendered in lower-case hex, as
    [.digest('hex')] does. *)
Definition bytes_of_string (s : string) : list Z :=
  map (fun c => Z.of_N (N_of_ascii c)) (list_ascii_of_string s).

Definition hex_digit (d : Z) : ascii :=
  ascii_of_N (Z.to_N (if d <? 10 then 48 + d else 87 + d)).

Definition hex_of_bytes (bs : list Z) : string :=
  string_of_list_ascii
    (flat_map (fun b => [hex_digit (b / 16); hex_digit (b mod 16)]) bs).

Definition sha256 : list Z -> list Z := digest sha256_variant H256 K256.
Definition sha512 : list Z -> list Z := digest sha512_variant H512 K512.

(** HMAC (RFC 2104) over SHA-512, block size 128 bytes. *)
Definition hmac_sha512 (key msg : list Z) : list Z :=
  let B := Z.to_nat (block_bytes sha512_variant) in
  let k0 := if (B <? length key)%nat then sha512 key else key in
  let k := k0 ++ repeat 0 (B - length k0)%nat in
  let ikey := map (Z.lxor 54) k in
  let okey := map (Z.lxor 92) k in
  sha512 (okey ++ sha512 (ikey ++ msg)).

End Sha2.

(** [crypto.createHash('sha256').update(s).digest('hex')] *)
Definition sha256_hex (s : string) : string :=
  Sha2.hex_of_bytes (Sha2.sha256 (Sha2.bytes_of_string s)).

(** [crypto.createHmac('sha512', key).update(s).digest('hex')] *)
Definition hmac_sha512_hex (key s : string) : string :=
  Sha2.hex_of_bytes
    (Sha2.hmac_sha512 (Sha2.bytes_of_string key) (Sha2.bytes_of_string s)).

Arguments sha256_hex : simpl never.
Arguments hmac_sha512_hex : simpl never.

(* ===================================================================== *)
(** ** JSON values, [JSON.stringify] and [JSON.parse]                     *)
(* ===================================================================== *)

(** The request body reaches the payment service after the
    [express.json()] middleware of server.js has parsed it, and
    [verifyWebhook] serialises it again with [JSON.stringify].  Both are
    modelled on the fragment of JSON whose numbers are integers of
    magnitude at most [2^53] (so that they are exact as JavaScript numbers
    and print in plain decimal) and whose strings use no [\u] escape.  An
    object is its list of properties in JavaScript's enumeration order. *)
Module Json.

#[local] Set Warnings "-register-all".

Inductive value :=
  | Null
  | Bool (b : bool)
  | Num (n : Z)
  | Str (s : string)
  | Arr (items : list value)
  | Obj (props : list (string * value)).

Definition chr (n : Z) : ascii := ascii_of_N (Z.to_N n).
Definition code (c : ascii) : Z := Z.of_N (N_of_ascii c).

  (** *** Serialisation *)

Fixpoint digits (fuel : nat) (n : Z) (acc : list ascii) : list ascii :=
  match fuel with
  | O => acc
  | S fuel' =>
      let acc' := chr (48 + n mod 10) :: acc in
      if n <? 10 then acc' else digits fuel' (n / 10) acc'
  end.

Definition number_to_string (n : Z) : string :=
  let ds := string_of_list_ascii (digits 20 (Z.abs n) []) in
  if n <? 0 then String "-" ds else ds.

(** QuoteJSONString of ECMA-262. *)
Definition quote_char (c : ascii) : list ascii :=
  let n := code c in
  let escaped (e : Z) := [chr 92; chr e] in
  if n =? 34 then escaped 34            (* the double quote *)
  else if n =? 92 then escaped 92       (* the backslash *)
  else if n =? 8 then escaped 98        (* \b *)
  else if n =? 12 then escaped 102      (* \f *)
  else if n =? 10 then escaped 110      (* \n *)
  else if n =? 13 then escaped 114      (* \r *)
  else if n =? 9 then escaped 116       (* \t *)
  else if n <? 32 then
    [chr 92; chr 117; chr 48; chr 48; Sha2.hex_digit (n / 16); Sha2.hex_digit (n mod 16)]
  else [c].

Definition quote (s : string) : string :=
  string_of_list_ascii
    ([chr 34] ++ flat_map quote_char (list_ascii_of_string s) ++ [chr 34]).

(** JSON texts are written in this file with an apostrophe in place of
    each double quote; [text] puts the double quotes back. *)
Definition text (s : string) : string :=
  string_of_list_ascii
    (map (fun c => if code c =? 39 then chr 34 else c) (list_ascii_of_string s)).

Fixpoint join (sep : string) (l : list string) : string :=
  match l with
  | [] => ""
  | [x] => x
  | x :: rest => x +:+ sep +:+ join sep rest
  end.

Fixpoint stringify (v : value) : string :=
  match v with
  | Null => "null"
  | Bool true => "true"
  | Bool false => "false"
  | Num n => number_to_string n
  | Str s => quote s
  | Arr items => "[" +:+ join "," (map stringify items) +:+ "]"
  | Obj props =>
      "{" +:+ join "," (map (fun kv => quote (fst kv) +:+ ":" +:+ stringify (snd kv)) props)
          +:+ "}"
  end.

  (** *** Parsing *)

Definition is_ws (c : ascii) : bool :=
  let n := code c in (n =? 32) || (n =? 9) || (n =? 10) || (n =? 13).

Fixpoint skip_ws (l : list ascii) : list ascii :=
  match l with
  | c :: rest => if is_ws c then skip_ws rest else l
  | [] => []
  end.

Definition is_digit (c : ascii) : bool := (48 <=? code c) && (code c <=? 57).

(** The characters after an opening quote, up to the closing one. *)
Fixpoint parse_string (l : list ascii) : option (list ascii * list ascii) :=
  match l with
  | [] => None
  | c :: rest =>
      if code c =? 34 then Some ([], rest)
      else if code c =? 92 then
        match rest with
        | e :: rest' =>
            let unescaped :=
              if code e =? 34 then Some (chr 34)
              else if code e =? 92 then Some (chr 92)
              else if code e =? 47 then Some (chr 47)
              else if code e =? 98 then Some (chr 8)
              else if code e =? 102 then Some (chr 12)
              else if code e =? 110 then Some (chr 10)
              else if code e =? 114 then Some (chr 13)
              else if code e =? 116 then Some (chr 9)
              else None in
            match unescaped, parse_string rest' with
            | Some u, Some (s, r) => Some (u :: s, r)
            | _, _ => None
            end
        | [] => None
        end
      else if code c <? 32 then None
      else match parse_string rest with
           | Some (s, r) => Some (c :: s, r)
           | None => None
           end
  end.

Fixpoint parse_digits (l : list ascii) (acc : Z) : Z * list ascii :=
  match l with
  | c :: rest => if is_digit c then parse_digits rest (acc * 10 + (code c - 48)) else (acc, l)
  | [] => (acc, [])
  end.

(** An integer literal: no leading zero, no fraction, no exponent. *)
Definition parse_number (l : list ascii) : option (Z * list ascii) :=
  let '(neg, l1) := match l with
                    | c :: rest => if code c =? 45 then (true, rest) else (false, l)
                    | [] => (false, l)
                    end in
  match l1 with
  | d :: rest =>
      if is_digit d then
        let '(n, r) := if code d =? 48 then (0, rest) else parse_digits l1 0 in
        let followed := match r with
                        | c :: _ => is_digit c || (code c =? 46) || (code c =? 101) || (code c =? 69)
                        | [] => false
                        end in
        if followed || (2 ^ 53 <? n) then None
        else Some (if neg then - n else n, r)
      else None
  | [] => None
  end.

(** Array-index keys ("0", "1", ...) are enumerated first, in numeric
    order; other keys follow in creation order; a repeated key keeps
    its place and takes the later value. *)
Definition array_index (k : string) : option Z :=
  match list_ascii_of_string k with
  | [] => None
  | d :: rest =>
      if negb (forallb is_digit (d :: rest)) then None
      else if (code d =? 48) && negb (length rest =? 0)%nat then None
      else let n := fst (parse_digits (d :: rest) 0) in
           if n <? 2 ^ 32 - 1 then Some n else None
  end.

Fixpoint set_named (k : string) (v : value) (props : list (string * value)) :=
  match props with
  | [] => [(k, v)]
  | (k', v') :: rest =>
      if String.eqb k k' then (k, v) :: rest else (k', v') :: set_named k v rest
  end.

Fixpoint set_indexed (i : Z) (k : string) (v : value) (props : list (string * value)) :=
  match props with
  | [] => [(k, v)]
  | (k', v') :: rest =>
      match array_index k' with
      | Some j =>
          if j =? i then (k, v) :: rest
          else if i <? j then (k, v) :: (k', v') :: rest
          else (k', v') :: set_indexed i k v rest
      | None => (k, v) :: (k', v') :: rest
      end
  end.

Definition set_property (k : string) (v : value) (props : list (string * value)) :=
  match array_index k with
  | Some i => set_indexed i k v props
  | None => set_named k v props
  end.

Definition starts_with (lit : string) (l : list ascii) : option (list ascii) :=
  let p := list_ascii_of_string lit in
  if decide (take (length p) l = p) then Some (drop (length p) l) else None.

Fixpoint parse_value (fuel : nat) (l : list ascii) : option (value * list ascii) :=
    match fuel with
    | O => None
    | S fuel' =>
        match skip_ws l with
        | [] => None
        | c :: rest =>
            if code c =? 34 then
              match parse_string rest with
              | Some (s, r) => Some (Str (string_of_list_ascii s), r)
              | None => None
              end
            else if code c =? 91 then
              match skip_ws rest with
              | c' :: r' => if code c' =? 93 then Some (Arr [], r')
                            else parse_items fuel' rest []
              | [] => None
              end
            else if code c =? 123 then
              match skip_ws rest with
              | c' :: r' => if code c' =? 125 then Some (Obj [], r')
                            else parse_members fuel' rest []
              | [] => None
              end
            else if is_digit c || (code c =? 45) then
              match parse_number (c :: rest) with
              | Some (n, r) => Some (Num n, r)
              | None => None
              end
            else
              match starts_with "null" (c :: rest), starts_with "true" (c :: rest),
                    starts_with "false" (c :: rest) with
              | Some r, _, _ => Some (Null, r)
              | _, Some r, _ => Some (Bool true, r)
              | _, _, Some r => Some (Bool false, r)
              | _, _, _ => None
              end
        end
    end
  with parse_items (fuel : nat) (l : list ascii) (acc : list value)
    : option (value * list ascii) :=
    match fuel with
    | O => None
    | S fuel' =>
        match parse_value fuel' l with
        | Some (v, r) =>
            match skip_ws r with
            | c :: r' =>
                if code c =? 44 then parse_items fuel' r' (acc ++ [v])
                else if code c =? 93 then Some (Arr (acc ++ [v]), r')
                else None
            | [] => None
            end
        | None => None
        end
    end
  with parse_members (fuel : nat) (l : list ascii) (acc : list (string * value))
    : option (value * list ascii) :=
    match fuel with
    | O => None
    | S fuel' =>
        match skip_ws l with
        | q :: r0 =>
            if code q =? 34 then
              match parse_string r0 with
              | Some (k, r1) =>
                  match skip_ws r1 with
                  | colon :: r2 =>
                      if code colon =? 58 then
                        match parse_value fuel' r2 with
                        | Some (v, r3) =>
                            let acc' := set_property (string_of_list_ascii k) v acc in
                            match skip_ws r3 with
                            | c :: r4 =>
                                if code c =? 44 then parse_members fuel' r4 acc'
                                else if code c =? 125 then Some (Obj acc', r4)
                                else None
                            | [] => None
                            end
                        | None => None
                        end
                      else None
                  | [] => None
                  end
              | None => None
              end
            else None
        | [] => None
        end
    end.

(** [JSON.parse]: one value, surrounded by optional white space. *)
Definition parse (s : string) : option value :=
  let l := list_ascii_of_string s in
  match parse_value (2 * length l + 2) l with
  | Some (v, r) => match skip_ws r with [] => Some v | _ => None end
  | None => None
  end.

End Json.

(** The body parser [express.json()] in its default (strict) mode: only an
    object or an array is accepted at top level; anything else answers 400
    before a route handler runs. *)
Definition express_json (raw : string) : option Json.value :=
  match Json.parse raw with
  | Some (Json.Obj props) => Some (Json.Obj props)
  | Some (Json.Arr items) => Some (Json.Arr items)
  | _ => None
  end.

(* ===================================================================== *)
(** ** Documents                                                          *)
(* ===================================================================== *)

(** Object ids are opaque keys; dates are milliseconds since the epoch,
    as [Date.now()] gives them. *)
Definition ObjectId := N.
Definition Date := Z.

(** [userSchema.subscription] of user.model.js. *)
Module Snapshot.
Record t := {
  status : string;
  plan : option string;
  startDate : option Date;
  endDate : option Date;
  paymentMethod : option string;
  autoRenew : bool
}.

#[global] Instance eq_dec : EqDecision t.
Proof. solve_decision. Defined.

Definition set_status (v : string) (s : t) : t :=
  {| status := v; plan := plan s; startDate := startDate s; endDate := endDate s;
     paymentMethod := paymentMethod s; autoRenew := autoRenew s |}.

Definition set_autoRenew (v : bool) (s : t) : t :=
  {| status := status s; plan := plan s; startDate := startDate s; endDate := endDate s;
     paymentMethod := paymentMethod s; autoRenew := v |}.

(** The [enum] validators of the schema. *)
Definition status_enum : list string := ["free"; "premium"; "cancelled"].
Definition plan_enum : list string := ["monthly"; "yearly"].
End Snapshot.

(** The User document of user.model.js: the fields read or written by the
    authentication and payment code (preferences, recipes, followers and
    points play no part there and are left out).  [password] is declared
    [select: false]: a document loaded by a query carries [None] there. *)
Module User.
Record t := {
  _id : ObjectId;
  name : string;
  email : string;
  phone : option string;
  password : option string;
  role : string;
  subscription : Snapshot.t;
  emailVerified : bool;
  emailVerificationToken : option string;
  emailVerificationExpire : option Date;
  lastActive : Date;
  isActive : bool
}.

#[global] Instance eq_dec : EqDecision t.
Proof. solve_decision. Defined.

Definition set_password (v : option string) (u : t) : t :=
  {| _id := _id u; name := name u; email := email u; phone := phone u;
     password := v; role := role u; subscription := subscription u;
     emailVerified := emailVerified u;
     emailVerificationToken := emailVerificationToken u;
     emailVerificationExpire := emailVerificationExpire u;
     lastActive := lastActive u; isActive := isActive u |}.

Definition set_subscription (v : Snapshot.t) (u : t) : t :=
  {| _id := _id u; name := name u; email := email u; phone := phone u;
     password := password u; role := role u; subscription := v;
     emailVerified := emailVerified u;
     emailVerificationToken := emailVerificationToken u;
     emailVerificationExpire := emailVerificationExpire u;
     lastActive := lastActive u; isActive := isActive u |}.

Definition set_verification (verified : bool) (token : option string)
    (expire : option Date) (u : t) : t :=
  {| _id := _id u; name := name u; email := email u; phone := phone u;
     password := password u; role := role u; subscription := subscription u;
     emailVerified := verified;
     emailVerificationToken := token;
     emailVerificationExpire := expire;
     lastActive := lastActive u; isActive := isActive u |}.

Definition set_lastActive (v : Date) (u : t) : t :=
  {| _id := _id u; name := name u; email := email u; phone := phone u;
     password := password u; role := role u; subscription := subscription u;
     emailVerified := emailVerified u;
     emailVerificationToken := emailVerificationToken u;
     emailVerificationExpire := emailVerificationExpire u;
     lastActive := v; isActive := isActive u |}.
End User.

(** Modelled from the spec: models/subscription.model.js is not among
    the sources.  The ledger record of §3 (id, user id, provider plan id,
    provider subscription code, status, amount, currency, start date,
    next payment date, cancelled at), under the field names that
    payment.service.js reads and writes.  [amount] is the provider's
    amount in pesewas: the service stores it divided by 100, a quotient
    kept here as numerator and denominator. *)
Module Subscription.
Record t := {
  _id : ObjectId;
  user : ObjectId;
  planId : string;
  subscriptionCode : string;
  emailToken : option string;
  status : string;
  amount : Z * Z;
  currency : string;
  startDate : Date;
  nextPaymentDate : Date;
  cancelledAt : option Date
}.

#[global] Instance eq_dec : EqDecision t.
Proof. solve_decision. Defined.

Definition set_status (v : string) (d : t) : t :=
  {| _id := _id d; user := user d; planId := planId d;
     subscriptionCode := subscriptionCode d; emailToken := emailToken d;
     status := v; amount := amount d; currency := currency d;
     startDate := startDate d; nextPaymentDate := nextPaymentDate d;
     cancelledAt := cancelledAt d |}.

Definition set_cancelledAt (v : option Date) (d : t) : t :=
  {| _id := _id d; user := user d; planId := planId d;
     subscriptionCode := subscriptionCode d; emailToken := emailToken d;
     status := status d; amount := amount d; currency := currency d;
     startDate := startDate d; nextPaymentDate := nextPaymentDate d;
     cancelledAt := v |}.
End Subscription.

(* ===================================================================== *)
(** ** The store and its monad                                            *)
(* ===================================================================== *)

(** The two collections, in their natural order (the order [findOne]
    scans), the Session Cache, and the fate of the coming writes to the
    document store: [true] at the head makes the next write fail. *)
Record store := {
  users : list User.t;
  subscriptions : list Subscription.t;
  sessions : gmap ObjectId string;
  faults : list bool
}.

Definition set_users (v : list User.t) (s : store) : store :=
  {| users := v; subscriptions := subscriptions s; sessions := sessions s; faults := faults s |}.
Definition set_subscriptions (v : list Subscription.t) (s : store) : store :=
  {| users := users s; subscriptions := v; sessions := sessions s; faults := faults s |}.
Definition set_sessions (v : gmap ObjectId string) (s : store) : store :=
  {| users := users s; subscriptions := subscriptions s; sessions := v; faults := faults s |}.
Definition set_faults (v : list bool) (s : store) : store :=
  {| users := users s; subscriptions := subscriptions s; sessions := sessions s; faults := v |}.

(** JavaScript exceptions: errors named by their class, and
    [ErrorResponse].  utils/errorResponse.js is not among the sources; as
    every [new ErrorResponse(message, statusCode)] of the controllers shows,
    it is an error that carries a status code. *)
Inductive exn :=
| JsError (name message : string)
| ErrorResponse (message : string) (statusCode : Z).

Inductive result (A : Type) :=
| Return (a : A)
| Throw (e : exn).
Arguments Return {A} a.
Arguments Throw {A} e.

(** An asynchronous function over the store: it returns or throws, and
    leaves a store behind in both cases. *)
Definition M (A : Type) : Type := store -> result A * store.

#[global] Instance M_ret : MRet M := fun A a s => (Return a, s).
#[global] Instance M_bind : MBind M := fun A B f m s =>
  match m s with
  | (Return a, s') => f a s'
  | (Throw e, s') => (Throw e, s')
  end.

Definition throw {A} (e : exn) : M A := fun s => (Throw e, s).

(** [try { body } catch (error) { handler(error) }] *)
Definition try_catch {A} (body : M A) (handler : exn -> M A) : M A := fun s =>
  match body s with
  | (Return a, s') => (Return a, s')
  | (Throw e, s') => handler e s'
  end.

(** A value of a synchronous computation that may throw. *)
Definition lift {A} (r : result A) : M A := fun s => (r, s).

(** Replace the first element that satisfies [p]. *)
Fixpoint update_where {A} (p : A -> bool) (d : A) (l : list A) : list A :=
  match l with
  | [] => []
  | x :: rest => if p x then d :: rest else x :: update_where p d rest
  end.

Definition has_user_id (i : ObjectId) (u : User.t) : bool := bool_decide (User._id u = i).
Definition has_sub_id (i : ObjectId) (d : Subscription.t) : bool :=
  bool_decide (Subscription._id d = i).

(** One write to the document store. *)
Definition db_write (apply : store -> store) : M unit := fun s =>
  match faults s with
  | true :: rest => (Throw (JsError "MongoServerError" "write failed"), set_faults rest s)
  | false :: rest => (Return (), apply (set_faults rest s))
  | [] => (Return (), apply s)
  end.

(** *** Queries *)

(** [User.findById(id)]; a query result does not carry the password. *)
Definition User_findById (i : ObjectId) : M (option User.t) := fun s =>
  (Return (User.set_password None <$> find (has_user_id i) (users s)), s).

(** [User.findOne({ email })] *)
Definition email_is (e : string) (u : User.t) : bool := String.eqb (User.email u) e.

Definition User_findOne_email (e : string) : M (option User.t) := fun s =>
  (Return (User.set_password None <$> find (email_is e) (users s)), s).

(** [User.findOne({ emailVerificationToken: h, emailVerificationExpire: { $gt: now } })] *)
Definition pending_verification (h : string) (now : Date) (u : User.t) : bool :=
  bool_decide (User.emailVerificationToken u = Some h)
  && match User.emailVerificationExpire u with
     | Some e => now <? e
     | None => false
     end.

Definition User_findOne_verification (h : string) (now : Date) : M (option User.t) := fun s =>
  (Return (User.set_password None <$> find (pending_verification h now) (users s)), s).

(** [Subscription.findOne({ user, status: 'active' })] *)
Definition active_of (uid : ObjectId) (d : Subscription.t) : bool :=
  bool_decide (Subscription.user d = uid) && String.eqb (Subscription.status d) "active".

Definition Subscription_findOne_active (uid : ObjectId) : M (option Subscription.t) := fun s =>
  (Return (find (active_of uid) (subscriptions s)), s).

(** [Subscription.findOne({ subscriptionCode })] *)
Definition code_is (c : string) (d : Subscription.t) : bool :=
  String.eqb (Subscription.subscriptionCode d) c.

Definition Subscription_findOne_code (c : string) : M (option Subscription.t) := fun s =>
  (Return (find (code_is c) (subscriptions s)), s).

(** *** Writes *)

(** The validators that run before a save: the [enum] of a path the
    operation modified. *)
Definition validate (old new : User.t) : bool :=
  let so := User.subscription old in
  let sn := User.subscription new in
  (bool_decide (Snapshot.status sn = Snapshot.status so)
   || bool_decide (Snapshot.status sn ∈ Snapshot.status_enum))
  && (bool_decide (Snapshot.plan sn = Snapshot.plan so)
      || match Snapshot.plan sn with
         | Some p => bool_decide (p ∈ Snapshot.plan_enum)
         | None => true
         end).

(** [user.save({ validateBeforeSave })].  A path that was not selected
    (the password) keeps its stored value; a document with no modified
    path is not written. *)
Definition keep_unselected (old u : User.t) : User.t :=
  match User.password u with
  | None => User.set_password (User.password old) u
  | Some _ => u
  end.

Definition User_save (validateBeforeSave : bool) (u : User.t) : M unit := fun s =>
  match find (has_user_id (User._id u)) (users s) with
  | None => (Throw (JsError "DocumentNotFoundError" "No document found"), s)
  | Some old =>
      let u' := keep_unselected old u in
      if bool_decide (u' = old) then (Return (), s)
      else if validateBeforeSave && negb (validate old u')
      then (Throw (JsError "ValidationError" "User validation failed"), s)
      else db_write (fun s' => set_users (update_where (has_user_id (User._id u)) u' (users s')) s') s
  end.

(** [subscription.save()] *)
Definition Subscription_save (d : Subscription.t) : M unit := fun s =>
  match find (has_sub_id (Subscription._id d)) (subscriptions s) with
  | None => (Throw (JsError "DocumentNotFoundError" "No document found"), s)
  | Some old =>
      if bool_decide (d = old) then (Return (), s)
      else db_write (fun s' =>
             set_subscriptions (update_where (has_sub_id (Subscription._id d)) d (subscriptions s')) s') s
  end.



(* ===================================================================== *)
(** ** Tokens, the Session Cache and the auth code                        *)
(* ===================================================================== *)

(** The payload of a token: [{ id, email, role }] for an access token,
    [{ id }] for a refresh token. *)
Record claims := {
  id : ObjectId;
  claim_email : option string;
  claim_role : option string
}.

(** What a handler does with the request: it answers, or it hands over to
    [next], with or without an error. *)
Inductive body :=
| Message (message : string)
| AccessToken (accessToken : string).

Inductive response :=
| Json (status : Z) (data : body)
| Next (err : option exn).

(** JavaScript truthiness of a string that may be [undefined] or [null]. *)
Definition truthy (v : option string) : bool :=
  match v with
  | Some s => negb (String.eqb s "")
  | None => false
  end.

(** [s.split(sep)] for a one-character separator. *)
Fixpoint split (sep : ascii) (s : string) : list string :=
  match s with
  | EmptyString => [""]
  | String c rest =>
      if Ascii.eqb c sep then "" :: split sep rest
      else match split sep rest with
           | h :: t => String c h :: t
           | [] => [String c ""]
           end
  end.

(** The token of the [Authorization] header, as both middlewares read it:
    [if (authorization && authorization.startsWith('Bearer'))
     token = authorization.split(' ')[1]]. *)
Definition bearer_token (authorization : option string) : option string :=
  match authorization with
  | Some h =>
      if truthy (Some h) && String.prefix "Bearer" h
      then split " " h !! 1%nat
      else None
  | None => None
  end.

(** [crypto.randomBytes(20).toString('hex')] renders the bytes it drew. *)
Definition toString_hex (bytes : list Z) : string := Sha2.hex_of_bytes bytes.

(** [userSchema.methods.generateEmailVerificationToken]: the document
    keeps the digest of the token and its expiry; the token is returned. *)
Definition generateEmailVerificationToken (now : Date) (randomBytes : list Z)
    (this : User.t) : string * User.t :=
  let verificationToken := toString_hex randomBytes in
  (verificationToken,
   User.set_verification (User.emailVerified this)
     (Some (sha256_hex verificationToken))
     (Some (now + 24 * 60 * 60 * 1000))
     this).

Section Auth.

  (** [process.env] *)
  Variables JWT_SECRET JWT_EXPIRE JWT_REFRESH_SECRET JWT_REFRESH_EXPIRE : string.

  (** The jsonwebtoken library: [jwt.sign(payload, secret, { expiresIn })]
      and [jwt.verify(token, secret)], which returns the payload or throws;
      both read the clock. *)
  Variable jwt_sign : Date -> claims -> string -> string -> string.
  Variable jwt_verify : Date -> string -> string -> result claims.

Definition generateAuthToken (now : Date) (this : User.t) : string :=
  jwt_sign now
    {| id := User._id this; claim_email := Some (User.email this);
       claim_role := Some (User.role this) |}
    JWT_SECRET JWT_EXPIRE.

Definition generateRefreshToken (now : Date) (this : User.t) : string :=
  jwt_sign now
    {| id := User._id this; claim_email := None; claim_role := None |}
    JWT_REFRESH_SECRET JWT_REFRESH_EXPIRE.

(** Modelled from the spec: services/auth.service.js is not among the
    sources.  §4.2: the Session Cache holds one refresh token per user
    id, and put is an upsert that overwrites any existing entry.  The
    time-to-live of an entry is not modelled; an expired entry is an
    absent one. *)
Definition storeRefreshToken (uid : ObjectId) (token : string) : M unit := fun s =>
  (Return (), set_sessions (<[uid := token]> (sessions s)) s).

(** Modelled from the spec: services/auth.service.js is not among the
    sources.  §4.2: get returns the entry or nothing. *)
Definition getRefreshToken (uid : ObjectId) : M (option string) := fun s =>
  (Return (sessions s !! uid), s).

(** Modelled from the spec: services/auth.service.js is not among the
    sources.  §4.2: remove deletes the entry; later refresh attempts
    find nothing. *)
Definition removeRefreshToken (uid : ObjectId) : M unit := fun s =>
  (Return (), set_sessions (delete uid (sessions s)) s).

(** Modelled from the spec: utils/asyncHandler.js is not among the
    sources.  §7 carries every error of a handler to one error-handling
    layer: a rejection of the handler is passed to [next]. *)
Definition asyncHandler (handler : M response) : M response :=
  try_catch handler (fun error => mret (Next (Some error))).

  (** *** auth.middleware.js *)

Definition protect (now : Date) (authorization : option string)
    (req_user : option User.t) : M (option User.t * response) :=
  let unauthorized := Next (Some (ErrorResponse "Not authorized to access this route" 401)) in
  match bearer_token authorization with
  | Some token =>
      if negb (truthy (Some token)) then mret (req_user, unauthorized)
      else
        match jwt_verify now token JWT_SECRET with
        | Throw _ => mret (req_user, unauthorized)
        | Return decoded =>
            user ← User_findById (id decoded);
            match user with
            | None => mret (None, Next (Some (ErrorResponse "User not found" 404)))
            | Some user =>
                if negb (User.isActive user)
                then mret (Some user,
                           Next (Some (ErrorResponse "User account is deactivated" 401)))
                else
                  let user := User.set_lastActive now user in
                  try_catch
                    (User_save false user;; mret (Some user, Next None))
                    (fun _ => mret (Some user, unauthorized))
            end
        end
  | None => mret (req_user, unauthorized)
  end.

Definition optionalAuth (now : Date) (authorization : option string)
    (req_user : option User.t) : M (option User.t * response) :=
  match bearer_token authorization with
  | Some token =>
      if negb (truthy (Some token)) then mret (req_user, Next None)
      else
        match jwt_verify now token JWT_SECRET with
        | Throw _ => mret (None, Next None)
        | Return decoded =>
            user ← User_findById (id decoded);
            mret (user, Next None)
        end
  | None => mret (req_user, Next None)
  end.

(** [requireSubscription(level)] *)
Definition requireSubscription (level : string) (req_user : User.t) : response :=
  if negb (String.eqb (Snapshot.status (User.subscription req_user)) level)
     && negb (String.eqb (User.role req_user) "admin")
  then Next (Some (ErrorResponse ("This feature requires a " +:+ level +:+ " subscription") 403))
  else Next None.

  (** *** auth.controller.js *)

(** [exports.refreshToken]; the argument is [req.body.refreshToken]. *)
Definition refreshToken (now : Date) (refreshToken : option string) : M response :=
  asyncHandler
    (if negb (truthy refreshToken)
     then mret (Next (Some (ErrorResponse "Refresh token is required" 400)))
     else
       let token := default "" refreshToken in
       decoded ← lift (jwt_verify now token JWT_REFRESH_SECRET);
       storedToken ← getRefreshToken (id decoded);
       if negb (truthy storedToken) || negb (bool_decide (storedToken = Some token))
       then mret (Next (Some (ErrorResponse "Invalid refresh token" 401)))
       else
         user ← User_findById (id decoded);
         match user with
         | None => mret (Next (Some (ErrorResponse "User not found" 404)))
         | Some user =>
             let newAccessToken := generateAuthToken now user in
             mret (Json 200 (AccessToken newAccessToken))
         end).

(** [exports.logout]; the route is private, [req.user] was set by [protect]. *)
Definition logout (req_user : User.t) : M response :=
  asyncHandler
    (removeRefreshToken (User._id req_user);;
     mret (Json 200 (Message "Logged out successfully"))).

(** [exports.verifyEmail]; the argument is [req.params.token]. *)
Definition verifyEmail (now : Date) (token : string) : M response :=
  asyncHandler
    (let hashedToken := sha256_hex token in
     user ← User_findOne_verification hashedToken now;
     match user with
     | None => mret (Next (Some (ErrorResponse "Invalid or expired verification token" 400)))
     | Some user =>
         let user := User.set_verification true None None user in
         User_save true user;;
         mret (Json 200 (Message "Email verified successfully"))
     end).

End Auth.

(* ===================================================================== *)
(** ** payment.service.js                                                 *)
(* ===================================================================== *)

(** The provider's JSON resources, reduced to the fields the service
    reads.  A field the service dereferences without a check is an
    [option]: reading through [None] is the [TypeError] of reading a
    property of [undefined]. *)
Module Paystack.

Record customer := {
  email : string;
  customer_code : string
}.

Record plan := {
  interval : string;
  amount : Z;
  currency : string
}.

(** [data.metadata]; [subscription] is the truthiness of
    [metadata.subscription]. *)
Record metadata := {
  subscription : bool
}.

  (** The subscription resource answered by [POST /subscription]. *)
  Module Resource.
Record t := {
    subscription_code : string;
    plan : Paystack.plan;
    createdAt : Date;
    next_payment_date : Date
}.
  End Resource.

  (** The [data] of a webhook event.  [timestamp] is the time the
      provider puts in the payload; no handler reads it. *)
  Module Event.
Record t := {
    reference : string;
    customer : option Paystack.customer;
    amount : Z;
    metadata : option Paystack.metadata;
    plan : option Paystack.plan;
    subscription_code : option string;
    next_payment_date : Date;
    timestamp : Date
}.
  End Event.

(** An HTTP call through axios resolves with the response data or
    rejects (no answer, or a status outside 2xx). *)
Inductive http (A : Type) :=
  | Resolved (data : A)
  | Rejected.
  Arguments Resolved {A} data.
  Arguments Rejected {A}.

(** The provider, as far as one service call sees it. *)
Record gateway := {
  (* GET /customer/:email, answering (data.status, data.data) *)
  get_customer : string -> http (bool * customer);
  (* POST /customer *)
  post_customer : User.t -> http customer;
  (* POST /subscription { customer, plan } *)
  post_subscription : string -> string -> http Resource.t;
  (* POST /subscription/disable { code, token } *)
  post_subscription_disable : string -> option string -> http Json.value
}.

End Paystack.

Import Paystack (http, Resolved, Rejected, gateway).

Section PaymentService.

  (** [this.paystackSecretKey] and the provider behind [axios]. *)
  Variable paystackSecretKey : string.
  Variable paystack : Paystack.gateway.

Definition axios_error : exn := JsError "AxiosError" "Request failed".
Definition type_error : exn := JsError "TypeError" "Cannot read properties of undefined".



(** [cancelSubscription(userId)] *)
Definition cancelSubscription (now : Date) (userId : ObjectId) : M Json.value :=
  try_catch
    (subscription ← Subscription_findOne_active userId;
     match subscription with
     | None => throw (JsError "Error" "No active subscription found")
     | Some subscription =>
         match Paystack.post_subscription_disable paystack
                 (Subscription.subscriptionCode subscription)
                 (Subscription.emailToken subscription) with
         | Rejected => throw axios_error
         | Resolved response_data =>
             let subscription :=
               Subscription.set_cancelledAt (Some now)
                 (Subscription.set_status "cancelled" subscription) in
             Subscription_save subscription;;
             user ← User_findById userId;
             match user with
             | None => throw type_error
             | Some user =>
                 let user :=
                   User.set_subscription
                     (Snapshot.set_autoRenew false
                        (Snapshot.set_status "cancelled" (User.subscription user))) user in
                 User_save true user;;
                 mret response_data
             end
         end
     end)
    (fun error => throw (JsError "Error" "Failed to cancel subscription")).

(** [verifyWebhook(body, signature)]; [signature] is the header, which
    may be missing. *)
Definition verifyWebhook (body : Json.value) (signature : option string) : bool :=
  let hash := hmac_sha512_hex paystackSecretKey (Json.stringify body) in
  bool_decide (Some hash = signature).

(** [handleChargeSuccess(data)] *)
Definition handleChargeSuccess (data : Paystack.Event.t) : M unit :=
  match Paystack.Event.metadata data with
  | Some metadata =>
      if Paystack.subscription metadata then
        match Paystack.Event.customer data with
        | None => throw type_error
        | Some customer =>
            user ← User_findOne_email (Paystack.email customer);
            match user with
            | Some user =>
                let user :=
                  User.set_subscription
                    (Snapshot.set_status "premium" (User.subscription user)) user in
                User_save true user
            | None => mret ()
            end
        end
      else mret ()
  | None => mret ()
  end.

(** [handleSubscriptionCreate(data)] *)
Definition handleSubscriptionCreate (now : Date) (data : Paystack.Event.t) : M unit :=
  match Paystack.Event.customer data with
  | None => throw type_error
  | Some customer =>
      user ← User_findOne_email (Paystack.email customer);
      match user with
      | Some user =>
          match Paystack.Event.plan data with
          | None => throw type_error
          | Some plan =>
              let user :=
                User.set_subscription
                  {| Snapshot.status := "premium";
                     Snapshot.plan := Some (Paystack.interval plan);
                     Snapshot.startDate := Some now;
                     Snapshot.endDate := Some (Paystack.Event.next_payment_date data);
                     Snapshot.paymentMethod := Some "paystack";
                     Snapshot.autoRenew := true |} user in
              User_save true user
          end
      | None => mret ()
      end
  end.

(** [handleSubscriptionDisable(data)] *)
Definition handleSubscriptionDisable (data : Paystack.Event.t) : M unit :=
  subscription ←
    match Paystack.Event.subscription_code data with
    | Some code => Subscription_findOne_code code
    | None => mret None
    end;
  match subscription with
  | Some subscription =>
      let subscription := Subscription.set_status "cancelled" subscription in
      Subscription_save subscription;;
      user ← User_findById (Subscription.user subscription);
      match user with
      | Some user =>
          let user :=
            User.set_subscription
              (Snapshot.set_autoRenew false
                 (Snapshot.set_status "free" (User.subscription user))) user in
          User_save true user
      | None => mret ()
      end
  | None => mret ()
  end.

(** [handlePaymentFailed(data)]: the failure is logged, nothing else. *)
Definition handlePaymentFailed (data : Paystack.Event.t) : M unit :=
  match Paystack.Event.customer data with
  | None => throw type_error
  | Some customer => mret ()
  end.

(** [processWebhook(event, data)]: an error of a handler is logged and
    thrown again; an event outside the four cases is logged. *)
Definition processWebhook (now : Date) (event : string) (data : Paystack.Event.t) : M unit :=
  try_catch
    (if String.eqb event "charge.success" then handleChargeSuccess data
     else if String.eqb event "subscription.create" then handleSubscriptionCreate now data
     else if String.eqb event "subscription.disable" then handleSubscriptionDisable data
     else if String.eqb event "invoice.payment_failed" then handlePaymentFailed data
     else mret ())
    (fun error => throw error).

End PaymentService.

(* ===================================================================== *)
(** ** A concrete deployment, for evaluation                              *)
(* ===================================================================== *)

Module Demo.

Definition ama : User.t :=
  {| User._id := 1%N; User.name := "Ama Mensah"; User.email := "ama@example.com";
     User.phone := Some "0241234567"; User.password := Some "$2a$10$amahash";
     User.role := "user";
     User.subscription :=
       {| Snapshot.status := "premium"; Snapshot.plan := Some "monthly";
          Snapshot.startDate := Some 1700000000000;
          Snapshot.endDate := Some 1702592000000;
          Snapshot.paymentMethod := Some "paystack"; Snapshot.autoRenew := true |};
     User.emailVerified := true;
     User.emailVerificationToken := None; User.emailVerificationExpire := None;
     User.lastActive := 1700000000000; User.isActive := true |}.

(** A deactivated account. *)
Definition kofi : User.t :=
  {| User._id := 2%N; User.name := "Kofi Boateng"; User.email := "kofi@example.com";
     User.phone := None; User.password := Some "$2a$10$kofihash";
     User.role := "user";
     User.subscription :=
       {| Snapshot.status := "free"; Snapshot.plan := None;
          Snapshot.startDate := None; Snapshot.endDate := None;
          Snapshot.paymentMethod := None; Snapshot.autoRenew := true |};
     User.emailVerified := false;
     User.emailVerificationToken := None; User.emailVerificationExpire := None;
     User.lastActive := 1690000000000; User.isActive := false |}.

(** A premium account that a webhook upgraded: it has no ledger record. *)
Definition esi : User.t :=
  {| User._id := 3%N; User.name := "Esi Owusu"; User.email := "esi@example.com";
     User.phone := None; User.password := Some "$2a$10$esihash";
     User.role := "user";
     User.subscription :=
       {| Snapshot.status := "premium"; Snapshot.plan := Some "monthly";
          Snapshot.startDate := Some 1700500000000;
          Snapshot.endDate := Some 1703092000000;
          Snapshot.paymentMethod := Some "paystack"; Snapshot.autoRenew := true |};
     User.emailVerified := true;
     User.emailVerificationToken := None; User.emailVerificationExpire := None;
     User.lastActive := 1700500000000; User.isActive := true |}.

Definition ledger_ama : Subscription.t :=
  {| Subscription._id := 1%N; Subscription.user := 1%N;
     Subscription.planId := "PLN_monthly"; Subscription.subscriptionCode := "SUB_ama";
     Subscription.emailToken := None; Subscription.status := "active";
     Subscription.amount := (5000, 100); Subscription.currency := "GHS";
     Subscription.startDate := 1700000000000;
     Subscription.nextPaymentDate := 1702592000000;
     Subscription.cancelledAt := None |}.

Definition store0 : store :=
  {| users := [ama; kofi; esi];
     subscriptions := [ledger_ama];
     sessions := {[ 1%N := "refresh.ama.1" ]};
     faults := [] |}.

(** Tokens of the form "access.<id>" and "refresh.<id>.<n>", for the
    three accounts. *)
Definition jwt_sign (now : Date) (payload : claims) (secret expiresIn : string) : string :=
  if String.eqb secret "access-secret"
  then (if (id payload =? 1)%N then "access.ama"
        else if (id payload =? 2)%N then "access.kofi" else "access.esi")
  else (if (id payload =? 1)%N then "refresh.ama.1"
        else if (id payload =? 2)%N then "refresh.kofi.1" else "refresh.esi.1").

Definition jwt_verify (now : Date) (token secret : string) : result claims :=
  let payload i := {| id := i; claim_email := None; claim_role := None |} in
  let bad := Throw (JsError "JsonWebTokenError" "invalid signature") in
  if String.eqb secret "access-secret" then
    if String.eqb token "access.ama" then Return (payload 1%N)
    else if String.eqb token "access.kofi" then Return (payload 2%N)
    else bad
  else if String.eqb secret "refresh-secret" then
    if String.eqb token "refresh.ama.1" then Return (payload 1%N)
    else if String.eqb token "refresh.ama.0" then Return (payload 1%N)
    else if String.eqb token "refresh.kofi.1" then Return (payload 2%N)
    else bad
  else bad.

(** A provider that answers every call. *)
Definition paystack : Paystack.gateway :=
  {| Paystack.get_customer := fun email =>
       Resolved (true, {| Paystack.email := email; Paystack.customer_code := "CUS_1" |});
     Paystack.post_customer := fun u =>
       Resolved {| Paystack.email := User.email u; Paystack.customer_code := "CUS_1" |};
     Paystack.post_subscription := fun customer plan =>
       Resolved {| Paystack.Resource.subscription_code := "SUB_new";
                   Paystack.Resource.plan :=
                     {| Paystack.interval := "monthly"; Paystack.amount := 5000;
                        Paystack.currency := "GHS" |};
                   Paystack.Resource.createdAt := 1701000000000;
                   Paystack.Resource.next_payment_date := 1703592000000 |};
     Paystack.post_subscription_disable := fun code token =>
       Resolved (Json.Obj [("status", Json.Bool true)]) |}.

Definition secret : string := "sk_test_secret".

(** Webhook payloads for Ama's subscription. *)
Definition disable_event : Paystack.Event.t :=
  {| Paystack.Event.reference := "evt_disable_1";
     Paystack.Event.customer :=
       Some {| Paystack.email := "ama@example.com"; Paystack.customer_code := "CUS_1" |};
     Paystack.Event.amount := 0; Paystack.Event.metadata := None;
     Paystack.Event.plan := None;
     Paystack.Event.subscription_code := Some "SUB_ama";
     Paystack.Event.next_payment_date := 1702592000000;
     Paystack.Event.timestamp := 1701000500000 |}.

(** A charge paid before the subscription was disabled, delivered late. *)
Definition stale_charge : Paystack.Event.t :=
  {| Paystack.Event.reference := "ref_charge_1";
     Paystack.Event.customer :=
       Some {| Paystack.email := "ama@example.com"; Paystack.customer_code := "CUS_1" |};
     Paystack.Event.amount := 5000;
     Paystack.Event.metadata := Some {| Paystack.subscription := true |};
     Paystack.Event.plan := None;
     Paystack.Event.subscription_code := None;
     Paystack.Event.next_payment_date := 1702592000000;
     Paystack.Event.timestamp := 1701000000000 |}.


Definition failed_invoice : Paystack.Event.t :=
  {| Paystack.Event.reference := "evt_invoice_1";
     Paystack.Event.customer :=
       Some {| Paystack.email := "ama@example.com"; Paystack.customer_code := "CUS_1" |};
     Paystack.Event.amount := 5000; Paystack.Event.metadata := None;
     Paystack.Event.plan := None;
     Paystack.Event.subscription_code := Some "SUB_ama";
     Paystack.Event.next_payment_date := 1702592000000;
     Paystack.Event.timestamp := 1702592000000 |}.

(** A webhook body as the provider sends it, and the same body with one
    blank inserted after the first colon. *)
Definition webhook_raw : string :=
  Json.text "{'event':'charge.success','data':{'reference':'ref_charge_1','amount':5000}}".

Definition webhook_raw_spaced : string :=
  Json.text "{'event': 'charge.success','data':{'reference':'ref_charge_1','amount':5000}}".

Definition webhook_body : Json.value :=
  Json.Obj [("event", Json.Str "charge.success");
            ("data", Json.Obj [("reference", Json.Str "ref_charge_1");
                               ("amount", Json.Num 5000)])].

(** The same body with the amount changed in one digit. *)
Definition webhook_raw_tampered : string :=
  Json.text "{'event':'charge.success','data':{'reference':'ref_charge_1','amount':9000}}".

Definition webhook_body_tampered : Json.value :=
  Json.Obj [("event", Json.Str "charge.success");
            ("data", Json.Obj [("reference", Json.Str "ref_charge_1");
                               ("amount", Json.Num 9000)])].


(** Twenty bytes drawn for a verification token. *)
Definition entropy : list Z :=
  [17; 203; 5; 88; 240; 131; 9; 77; 162; 54; 190; 3; 211; 98; 45; 120; 7; 255; 64; 32].

End Demo.

(* ===================================================================== *)
(** ** Observations and general facts about the store                     *)
(* ===================================================================== *)

(** The stored document of a user, and the status of its snapshot. *)
Definition stored_user (i : ObjectId) (s : store) : option User.t :=
  find (has_user_id i) (users s).

Definition snapshot_status (i : ObjectId) (s : store) : option string :=
  (fun u => Snapshot.status (User.subscription u)) <$> stored_user i s.



Ltac unfold_M :=
  unfold mbind, mret, M_bind, M_ret, throw, lift, try_catch in *.

(** Whether a character occurs in a string. *)
Fixpoint contains (c : ascii) (s : string) : bool :=
  match s with
  | EmptyString => false
  | String c' rest => Ascii.eqb c' c || contains c rest
  end.



(** The store after the same event was delivered at each of [times]. *)
Fixpoint deliver (times : list Date) (event : string) (data : Paystack.Event.t)
    (s : store) : store :=
  match times with
  | [] => s
  | t :: rest => deliver rest event data (snd (processWebhook t event data s))
  end.

(* ===================================================================== *)
(** ** sms.service.js and the phone validator of the schema               *)
(* ===================================================================== *)

(** [phone.replace(/\D/g, '')]: the decimal digits of the string, in
    order. *)
Fixpoint remove_non_digits (s : string) : string :=
  match s with
  | EmptyString => EmptyString
  | String c rest =>
      if Json.is_digit c then String c (remove_non_digits rest)
      else remove_non_digits rest
  end.

(** [s.substring(n)] *)
Fixpoint substring_from (n : nat) (s : string) : string :=
  match n, s with
  | O, _ => s
  | S n', String _ rest => substring_from n' rest
  | S _, EmptyString => EmptyString
  end.

(** [formatPhoneNumber(phone)] of the SMS service. *)
Definition formatPhoneNumber (phone : string) : string :=
  let cleaned := remove_non_digits phone in
  let cleaned :=
    if negb (String.prefix "233" cleaned) then
      if String.prefix "0" cleaned then "233" +:+ substring_from 1 cleaned
      else "233" +:+ cleaned
    else cleaned in
  "+" +:+ cleaned.

Fixpoint all_digits (s : string) : bool :=
  match s with
  | EmptyString => true
  | String c rest => Json.is_digit c && all_digits rest
  end.

(** The [match] validator of [phone] in user.model.js,
    [/^(\+233|0)[0-9]{9}$/]. *)
Definition ghana_phone (s : string) : bool :=
  let nine (rest : string) := (String.length rest =? 9)%nat && all_digits rest in
  (String.prefix "+233" s && nine (substring_from 4 s))
  || (String.prefix "0" s && nine (substring_from 1 s)).

(* ===================================================================== *)
(** ** auth.middleware.js and auth.controller.js, continued               *)
(* ===================================================================== *)

(** [authorize(...roles)] *)
Definition authorize (roles : list string) (req_user : User.t) : response :=
  if negb (bool_decide (User.role req_user ∈ roles))
  then Next (Some (ErrorResponse
                     ("User role " +:+ User.role req_user
                      +:+ " is not authorized to access this route") 403))
  else Next None.

(** The part of a user that the answer of [login] shows (the avatar and
    the preferences, which the User record above leaves out, apart). *)
Module Profile.
Record t := {
  id : ObjectId;
  name : string;
  email : string;
  phone : option string;
  role : string;
  subscription : Snapshot.t
}.
End Profile.

Definition profile_of (u : User.t) : Profile.t :=
  {| Profile.id := User._id u; Profile.name := User.name u; Profile.email := User.email u;
     Profile.phone := User.phone u; Profile.role := User.role u;
     Profile.subscription := User.subscription u |}.

(** What [login] does with the request: it answers 200 with the user and
    the token pair, or hands an error to [next]. *)
Inductive login_outcome :=
| LoggedIn (user : Profile.t) (accessToken refreshToken : string)
| LoginNext (err : exn).

Section Login.

  Variables JWT_SECRET JWT_EXPIRE JWT_REFRESH_SECRET JWT_REFRESH_EXPIRE : string.
  Variable jwt_sign : Date -> claims -> string -> string -> string.

  (** bcryptjs: [bcrypt.compare(candidate, hash)]. *)
  Variable bcrypt_compare : string -> string -> bool.

  (** The filter [{ $or: [{ email }, { phone }] }] as the document store
      evaluates it on a user; a field the request leaves out is [None]. *)
  Variable matches_either : option string -> option string -> User.t -> bool.

(** [User.findOne({ $or: [{ email }, { phone }] }).select('+password')]:
    the document comes with its password hash. *)
Definition User_findOne_login (email phone : option string) : M (option User.t) := fun s =>
  (Return (find (matches_either email phone) (users s)), s).

(** [userSchema.methods.comparePassword]; bcryptjs rejects when the
    document carries no hash. *)
Definition comparePassword (this : User.t) (candidatePassword : string) : result bool :=
  match User.password this with
  | Some hash => Return (bcrypt_compare candidatePassword hash)
  | None => Throw (JsError "Error" "Illegal arguments: string, undefined")
  end.

(** [exports.login]; the arguments are the three fields of [req.body].
    The handler runs under [asyncHandler]: an error it throws goes to
    [next]. *)
Definition login (now : Date) (email phone password : option string) : M login_outcome :=
  try_catch
    (if (negb (truthy email) && negb (truthy phone)) || negb (truthy password)
     then mret (LoginNext (ErrorResponse "Please provide email/phone and password" 400))
     else
       user ← User_findOne_login email phone;
       match user with
       | None => mret (LoginNext (ErrorResponse "Invalid credentials" 401))
       | Some user =>
           isPasswordValid ← lift (comparePassword user (default "" password));
           if negb isPasswordValid
           then mret (LoginNext (ErrorResponse "Invalid credentials" 401))
           else
             let user := User.set_lastActive now user in
             User_save false user;;
             let accessToken := generateAuthToken JWT_SECRET JWT_EXPIRE jwt_sign now user in
             let refreshToken :=
               generateRefreshToken JWT_REFRESH_SECRET JWT_REFRESH_EXPIRE jwt_sign now user in
             storeRefreshToken (User._id user) refreshToken;;
             mret (LoggedIn (profile_of user) accessToken refreshToken)
       end)
    (fun error => mret (LoginNext error)).

End Login.

(* ===================================================================== *)
(** ** Comparing documents, and further cases for evaluation              *)
(* ===================================================================== *)

(** Two user documents that differ at most in the subscription snapshot. *)
Definition same_account (u v : User.t) : Prop :=
  User.set_subscription (User.subscription v) u = v.

#[global] Instance same_account_dec (u v : User.t) : Decision (same_account u v).
Proof. unfold same_account. apply _. Defined.

(** Two ledger records that differ at most in the status. *)
Definition same_record (d e : Subscription.t) : Prop :=
  Subscription.set_status (Subscription.status e) d = e.

#[global] Instance same_record_dec (d e : Subscription.t) : Decision (same_record d e).
Proof. unfold same_record. apply _. Defined.

(** Ledger ids are unique within the collection. *)
Definition unique_ledger_ids (s : store) : Prop :=
  NoDup (map Subscription._id (subscriptions s)).

Module Cases.

(** A stand-in for bcrypt: the hash of a password is the password behind
    a fixed prefix. *)
Definition bcrypt_compare (candidate hash : string) : bool :=
  String.eqb hash ("$2a$10$" +:+ candidate).

(** A document store that matches [{ $or: [{ email }, { phone }] }] on
    the fields the request carries. *)
Definition matches_either (email phone : option string) (u : User.t) : bool :=
  match email with
  | Some e => String.eqb (User.email u) e
  | None => false
  end
  || match phone with
     | Some p => bool_decide (User.phone u = Some p)
     | None => false
     end.

(** A provider that rejects every call. *)
Definition paystack_down : Paystack.gateway :=
  {| Paystack.get_customer := fun email => Rejected;
     Paystack.post_customer := fun u => Rejected;
     Paystack.post_subscription := fun customer plan => Rejected;
     Paystack.post_subscription_disable := fun code token => Rejected |}.

(** A provider whose customer lookup answers 200 with [status: false]. *)
Definition paystack_falsy_status : Paystack.gateway :=
  {| Paystack.get_customer := fun email =>
       Resolved (false, {| Paystack.email := email; Paystack.customer_code := "" |});
     Paystack.post_customer := Paystack.post_customer Demo.paystack;
     Paystack.post_subscription := Paystack.post_subscription Demo.paystack;
     Paystack.post_subscription_disable := Paystack.post_subscription_disable Demo.paystack |}.

(** A provider whose plan is billed once a year; it names that interval
    'annually'. *)
Definition annual_plan : Paystack.plan :=
  {| Paystack.interval := "annually"; Paystack.amount := 50000; Paystack.currency := "GHS" |}.

Definition paystack_annual : Paystack.gateway :=
  {| Paystack.get_customer := Paystack.get_customer Demo.paystack;
     Paystack.post_customer := Paystack.post_customer Demo.paystack;
     Paystack.post_subscription := fun customer plan =>
       Resolved {| Paystack.Resource.subscription_code := "SUB_annual";
                   Paystack.Resource.plan := annual_plan;
                   Paystack.Resource.createdAt := 1701000000000;
                   Paystack.Resource.next_payment_date := 1732622400000 |};
     Paystack.post_subscription_disable := Paystack.post_subscription_disable Demo.paystack |}.

(** [subscription.create] for Kofi on the annual plan. *)
Definition annual_create_event : Paystack.Event.t :=
  {| Paystack.Event.reference := "evt_create_2";
     Paystack.Event.customer :=
       Some {| Paystack.email := "kofi@example.com"; Paystack.customer_code := "CUS_2" |};
     Paystack.Event.amount := 50000; Paystack.Event.metadata := None;
     Paystack.Event.plan := Some annual_plan;
     Paystack.Event.subscription_code := Some "SUB_kofi";
     Paystack.Event.next_payment_date := 1732622400000;
     Paystack.Event.timestamp := 1701000000000 |}.

(** A charge that is not a subscription payment: no metadata, no
    customer. *)
Definition one_off_charge : Paystack.Event.t :=
  {| Paystack.Event.reference := "ref_charge_2";
     Paystack.Event.customer := None;
     Paystack.Event.amount := 1500; Paystack.Event.metadata := None;
     Paystack.Event.plan := None;
     Paystack.Event.subscription_code := None;
     Paystack.Event.next_payment_date := 0;
     Paystack.Event.timestamp := 1701000000000 |}.

(** A subscription charge for an e-mail address that no user has. *)
Definition stranger_charge : Paystack.Event.t :=
  {| Paystack.Event.reference := "ref_charge_3";
     Paystack.Event.customer :=
       Some {| Paystack.email := "yaw@example.com"; Paystack.customer_code := "CUS_9" |};
     Paystack.Event.amount := 5000;
     Paystack.Event.metadata := Some {| Paystack.subscription := true |};
     Paystack.Event.plan := None;
     Paystack.Event.subscription_code := None;
     Paystack.Event.next_payment_date := 1702592000000;
     Paystack.Event.timestamp := 1701000000000 |}.

(** Kofi with a verification token pending, and a store that holds him
    so. *)
Definition kofi_pending : User.t :=
  snd (generateEmailVerificationToken 1701000000000 Demo.entropy Demo.kofi).

Definition store_pending : store :=
  set_users [Demo.ama; kofi_pending; Demo.esi] Demo.store0.

(** The demo store with the next write failing. *)
Definition store_failing_next_write : store := set_faults [true] Demo.store0.

End Cases.

(* ===================================================================== *)
(** * Properties                                                          *)
(* ===================================================================== *)

(** ** The digests and the JSON functions on known inputs *)

Example sha256_abc :
  sha256_hex "abc"
  = "ba7816bf8f01cfea414140de5dae2223b00361a396177a9cb410ff61f20015ad".
Proof. vm_compute. reflexivity. Qed.

Example hmac_sha512_rfc4231_case2 :
  hmac_sha512_hex "Jefe" "what do ya want for nothing?"
  = "164b7a7bfcf819e2e395fbe73b56e0a387bd64222e831fd610270cd7ea2505549758bf75c05a994a6d034f65f8f0e6fdcaeab1a34d4a6b4b636e070a38bce737".
Proof. vm_compute. reflexivity. Qed.

Example parse_compact :
  Json.parse (Json.text "{'event':'charge.success','data':{'amount':5000,'ok':true}}")
  = Some (Json.Obj [("event", Json.Str "charge.success");
                    ("data", Json.Obj [("amount", Json.Num 5000); ("ok", Json.Bool true)])]).
Proof. vm_compute. reflexivity. Qed.

Example parse_property_order :
  Json.stringify <$> Json.parse (Json.text "{ 'b': 1, '10': [null, -0], '2': 'x\ny', 'b': 7 }")
  = Some (Json.text "{'2':'x\ny','10':[null,0],'b':7}").
Proof. vm_compute. reflexivity. Qed.

(** ** General facts about the store *)







(** [try { ... } catch (error) { throw error }] is the block itself. *)
Lemma try_catch_rethrow {A} (body : M A) (s : store) :
  try_catch body (fun error => throw error) s = body s.
Proof.
  unfold try_catch, throw. destruct (body s) as [[a|e] s']; reflexivity.
Qed.




Lemma processWebhook_payment_failed (now : Date) (data : Paystack.Event.t) (st : store) :
  processWebhook now "invoice.payment_failed" data st = handlePaymentFailed data st.
Proof. unfold processWebhook. rewrite try_catch_rethrow. reflexivity. Qed.

(** ** The auth middleware *)

Lemma split_without_separator (sep : ascii) (s : string) :
  contains sep s = false -> split sep s = [s].
Proof.
  induction s as [|c s IH]; simpl; [reflexivity|].
  intros H. apply orb_false_iff in H as [Hc Hs].
  rewrite Hc, (IH Hs). reflexivity.
Qed.

Lemma bearer_token_of_header (token : string) :
  contains " " token = false ->
  bearer_token (Some ("Bearer " +:+ token)) = Some token.
Proof.
  intros H. unfold bearer_token, String.append. cbn.
  rewrite (split_without_separator _ _ H). reflexivity.
Qed.

Section AuthProperties.

  Variables JWT_SECRET JWT_EXPIRE JWT_REFRESH_SECRET JWT_REFRESH_EXPIRE : string.
  Variable jwt_sign : Date -> claims -> string -> string -> string.
  Variable jwt_verify : Date -> string -> string -> result claims.

(** C10.  A request that carries a valid access token of an existing,
    deactivated user: [protect] answers 401 and does not call the route,
    [optionalAuth] attaches that user to the request and lets it
    proceed, without looking at [isActive].  Neither changes the store. *)
Theorem deactivated_user_protect_and_optionalAuth :
  forall (now : Date) (token : string) (decoded : claims) (u : User.t)
         (req_user : option User.t) (st : store),
    token <> "" ->
    contains " " token = false ->
    jwt_verify now token JWT_SECRET = Return decoded ->
    stored_user (id decoded) st = Some u ->
    User.isActive u = false ->
    protect JWT_SECRET jwt_verify now (Some ("Bearer " +:+ token)) req_user st
    = (Return (Some (User.set_password None u),
               Next (Some (ErrorResponse "User account is deactivated" 401))), st)
    /\ optionalAuth JWT_SECRET jwt_verify now (Some ("Bearer " +:+ token)) req_user st
       = (Return (Some (User.set_password None u), Next None), st).
Proof.
  intros now token decoded u req_user st Hne Hsp Hv Hu Hact.
  assert (Ht : truthy (Some token) = true).
  { simpl. destruct (String.eqb_spec token ""); [contradiction | reflexivity]. }
  unfold stored_user in Hu.
  unfold protect, optionalAuth.
  rewrite (bearer_token_of_header _ Hsp), Ht, Hv. simpl.
  unfold_M. unfold User_findById. rewrite Hu. simpl. rewrite Hact. simpl.
  split; reflexivity.
Qed.

(** ** Refresh tokens and the Session Cache *)

Lemma truthy_nonempty (s : string) : s <> "" -> truthy (Some s) = true.
Proof.
  intros H. simpl. destruct (String.eqb_spec s ""); [contradiction | reflexivity].
Qed.


(** The refusing path of [refreshToken], spelled out. *)
Lemma refreshToken_refuses :
  forall (now : Date) (token : string) (decoded : claims) (st : store),
    token <> "" ->
    jwt_verify now token JWT_REFRESH_SECRET = Return decoded ->
    sessions st !! id decoded <> Some token ->
    refreshToken JWT_SECRET JWT_EXPIRE JWT_REFRESH_SECRET jwt_sign jwt_verify
      now (Some token) st
    = (Return (Next (Some (ErrorResponse "Invalid refresh token" 401))), st).
Proof.
  intros now token decoded st Hne Hv Hc.
  unfold refreshToken, asyncHandler, getRefreshToken. unfold_M.
  rewrite (truthy_nonempty _ Hne). simpl. rewrite Hv.
  rewrite (bool_decide_eq_false_2 _ Hc). simpl.
  rewrite orb_true_r. reflexivity.
Qed.


(** Outside the cases above: a request without a token is a 400, and a
    token that [jwt.verify] rejects reaches [next] as the library's own
    error, before the cache is read. *)
Lemma refresh_without_token :
  forall (now : Date) (st : store),
    refreshToken JWT_SECRET JWT_EXPIRE JWT_REFRESH_SECRET jwt_sign jwt_verify now None st
    = (Return (Next (Some (ErrorResponse "Refresh token is required" 400))), st).
Proof. reflexivity. Qed.

Lemma refresh_with_unverifiable_token :
  forall (now : Date) (token : string) (e : exn) (st : store),
    token <> "" ->
    jwt_verify now token JWT_REFRESH_SECRET = Throw e ->
    refreshToken JWT_SECRET JWT_EXPIRE JWT_REFRESH_SECRET jwt_sign jwt_verify
      now (Some token) st
    = (Return (Next (Some e)), st).
Proof.
  intros now token e st Hne Hv.
  unfold refreshToken, asyncHandler. unfold_M.
  rewrite (truthy_nonempty _ Hne). simpl. rewrite Hv. reflexivity.
Qed.

(** After a logout the cache has no entry for the user, so the token
    issued before is refused. *)
Lemma refresh_after_logout :
  forall (now : Date) (token : string) (decoded : claims) (u : User.t) (st st' : store)
         (r : result response),
    token <> "" ->
    jwt_verify now token JWT_REFRESH_SECRET = Return decoded ->
    User._id u = id decoded ->
    logout u st = (r, st') ->
    refreshToken JWT_SECRET JWT_EXPIRE JWT_REFRESH_SECRET jwt_sign jwt_verify
      now (Some token) st'
    = (Return (Next (Some (ErrorResponse "Invalid refresh token" 401))), st').
Proof.
  intros now token decoded u st st' r Hne Hv Hid Hl.
  apply refreshToken_refuses with (decoded := decoded); auto.
  unfold logout, asyncHandler, removeRefreshToken in Hl. unfold_M.
  injection Hl as _ <-. simpl. rewrite Hid, lookup_delete_eq. discriminate.
Qed.

(** A later login stores another token: the earlier one is refused. *)
Lemma refresh_after_overwrite :
  forall (now : Date) (token token' : string) (decoded : claims) (st st' : store)
         (r : result unit),
    token <> "" -> token' <> token ->
    jwt_verify now token JWT_REFRESH_SECRET = Return decoded ->
    storeRefreshToken (id decoded) token' st = (r, st') ->
    refreshToken JWT_SECRET JWT_EXPIRE JWT_REFRESH_SECRET jwt_sign jwt_verify
      now (Some token) st'
    = (Return (Next (Some (ErrorResponse "Invalid refresh token" 401))), st').
Proof.
  intros now token token' decoded st st' r Hne Hd Hv Hs.
  apply refreshToken_refuses with (decoded := decoded); auto.
  unfold storeRefreshToken in Hs. injection Hs as _ <-. simpl.
  rewrite lookup_insert_eq. congruence.
Qed.


End AuthProperties.



Lemma deactivated_user_witness :
  protect "access-secret" Demo.jwt_verify 1701000000000
    (Some ("Bearer " +:+ "access.kofi")) None Demo.store0
  = (Return (Some (User.set_password None Demo.kofi),
             Next (Some (ErrorResponse "User account is deactivated" 401))), Demo.store0)
  /\ optionalAuth "access-secret" Demo.jwt_verify 1701000000000
       (Some ("Bearer " +:+ "access.kofi")) None Demo.store0
     = (Return (Some (User.set_password None Demo.kofi), Next None), Demo.store0).
Proof.
  apply (deactivated_user_protect_and_optionalAuth "access-secret" Demo.jwt_verify
           1701000000000 "access.kofi"
           {| id := 2%N; claim_email := None; claim_role := None |} Demo.kofi None Demo.store0).
  - discriminate.
  - reflexivity.
  - reflexivity.
  - reflexivity.
  - reflexivity.
Defined.

(** ** The webhook signature *)

Example digest_of_compact_body :
  hmac_sha512_hex Demo.secret Demo.webhook_raw
  = "e6ffd05de3507a53e18abcb9fea88422f5ef85c2a0176bc9af8b93880002a070f0bbd7a3a8035289c71744438b3fde880a6e65e536d1c35a3386ba52cc44d65f".
Proof. vm_compute. reflexivity. Qed.

Example digest_of_spaced_body :
  hmac_sha512_hex Demo.secret Demo.webhook_raw_spaced
  = "09a0d1440949f86f5f1f36a5f8d527ff03118567db2faea2c70ff11aa8f5d49a28560bde059bf75b750bca6892e7808d90d8ef108609d41d3ccd9cce5f79804e".
Proof. vm_compute. reflexivity. Qed.

Example spaced_body_parses : express_json Demo.webhook_raw_spaced = Some Demo.webhook_body.
Proof. vm_compute. reflexivity. Qed.

Example compact_body_parses : express_json Demo.webhook_raw = Some Demo.webhook_body.
Proof. vm_compute. reflexivity. Qed.

Example body_is_reserialised_compact : Json.stringify Demo.webhook_body = Demo.webhook_raw.
Proof. vm_compute. reflexivity. Qed.

(** The verdict of [verifyWebhook], in terms of the digest it compares. *)
Lemma verifyWebhook_true_iff (key : string) (body : Json.value) (signature : option string) :
  verifyWebhook key body signature = true
  <-> signature = Some (hmac_sha512_hex key (Json.stringify body)).
Proof.
  unfold verifyWebhook. rewrite bool_decide_eq_true. split; congruence.
Qed.

(** C3, as stated, fails: the body with a blank inserted is accepted
    under the signature of the compact body, which is not the keyed hash
    of the bytes received. *)
Lemma reserialised_body_accepts_other_bytes :
  ~ (
    forall (key raw : string) (body : Json.value) (signature : option string),
      express_json raw = Some body ->
      signature <> Some (hmac_sha512_hex key raw) ->
      verifyWebhook key body signature = false).
Proof.
  intros H.
  specialize (H Demo.secret Demo.webhook_raw_spaced Demo.webhook_body
                (Some (hmac_sha512_hex Demo.secret Demo.webhook_raw))
                spaced_body_parses).
  assert (Haccepted : verifyWebhook Demo.secret Demo.webhook_body
                        (Some (hmac_sha512_hex Demo.secret Demo.webhook_raw)) = true).
  { apply verifyWebhook_true_iff. rewrite body_is_reserialised_compact. reflexivity. }
  rewrite H in Haccepted; [discriminate|].
  rewrite digest_of_compact_body, digest_of_spaced_body. discriminate.
Qed.

(** C3, as the code has it.  [verifyWebhook] compares the header with the
    keyed hash of the parsed body serialised again, and answers [false]
    whenever the two differ or the header is missing.  It is a pure
    predicate: it raises no error and reads or writes no user or ledger
    record; what happens to a refused request is the caller's business. *)
Theorem verifyWebhook_rejects_other_digest :
  forall (key raw : string) (body : Json.value) (signature : option string),
    express_json raw = Some body ->
    signature <> Some (hmac_sha512_hex key (Json.stringify body)) ->
    verifyWebhook key body signature = false.
Proof.
  intros key raw body signature _ Hne.
  destruct (verifyWebhook key body signature) eqn:E; [|reflexivity].
  apply verifyWebhook_true_iff in E. contradiction.
Qed.

Example tampered_body_parses :
  express_json Demo.webhook_raw_tampered = Some Demo.webhook_body_tampered.
Proof. vm_compute. reflexivity. Qed.

Example digest_of_tampered_body :
  hmac_sha512_hex Demo.secret (Json.stringify Demo.webhook_body_tampered)
  = "ec39c1f962ba2e47feef431345a70900f24f5300fb6a49729e11a3442df435cc3fd9da43ded8b33f7c6a132bff1f988cad4bc01ea9d63d10a1dffdab905e4104".
Proof. vm_compute. reflexivity. Qed.

(** A body with one digit changed, under the signature of the original. *)
Lemma tampered_body_rejected_witness :
  verifyWebhook Demo.secret Demo.webhook_body_tampered
    (Some (hmac_sha512_hex Demo.secret Demo.webhook_raw)) = false.
Proof.
  apply (verifyWebhook_rejects_other_digest Demo.secret Demo.webhook_raw_tampered
           Demo.webhook_body_tampered (Some (hmac_sha512_hex Demo.secret Demo.webhook_raw))
           tampered_body_parses).
  rewrite digest_of_compact_body, digest_of_tampered_body. discriminate.
Defined.

(** The provider's own signature over the bytes of the spaced body does
    not pass: the digest is taken over the compact serialisation. *)
Example genuine_signature_of_spaced_body_rejected :
  verifyWebhook Demo.secret Demo.webhook_body
    (Some (hmac_sha512_hex Demo.secret Demo.webhook_raw_spaced)) = false.
Proof.
  destruct (verifyWebhook _ _ _) eqn:E; [|reflexivity].
  apply verifyWebhook_true_iff in E.
  rewrite body_is_reserialised_compact, digest_of_compact_body, digest_of_spaced_body in E.
  discriminate.
Qed.

(** The original body under a signature made with another secret. *)
Example wrong_secret_rejected :
  verifyWebhook Demo.secret Demo.webhook_body
    (Some (hmac_sha512_hex "sk_test_other" Demo.webhook_raw)) = false.
Proof. vm_compute. reflexivity. Qed.

(** ** The webhook handlers *)

(** C5, as the code has it.  An [invoice.payment_failed] event is logged
    and changes nothing: the store after it is the store before it.  The
    handler returns, or throws the [TypeError] of reading the e-mail of a
    missing customer. *)
Theorem payment_failed_changes_nothing :
  forall (now : Date) (data : Paystack.Event.t) (st : store),
    processWebhook now "invoice.payment_failed" data st
    = (match Paystack.Event.customer data with
       | Some _ => Return ()
       | None => Throw type_error
       end, st).
Proof.
  intros now data st. rewrite processWebhook_payment_failed.
  unfold handlePaymentFailed. unfold_M.
  destruct (Paystack.Event.customer data); reflexivity.
Qed.

(** C5, as stated, fails: Ama is premium before and after the event. *)
Lemma payment_failed_leaves_premium :
  ~ (
    forall (now : Date) (data : Paystack.Event.t) (customer : Paystack.customer)
           (u : User.t) (r : result unit) (st st' : store),
      stored_user (User._id u) st = Some u ->
      Snapshot.status (User.subscription u) = "premium" ->
      Paystack.Event.customer data = Some customer ->
      Paystack.email customer = User.email u ->
      processWebhook now "invoice.payment_failed" data st = (r, st') ->
      snapshot_status (User._id u) st' = Some "past_due").
Proof.
  intros H.
  specialize (H 1702592100000 Demo.failed_invoice
                {| Paystack.email := "ama@example.com"; Paystack.customer_code := "CUS_1" |}
                Demo.ama (Return ()) Demo.store0 Demo.store0
                eq_refl eq_refl eq_refl eq_refl).
  rewrite processWebhook_payment_failed in H. specialize (H eq_refl).
  assert (E : snapshot_status (User._id Demo.ama) Demo.store0 = Some "premium")
    by reflexivity.
  rewrite E in H. discriminate.
Qed.

(** The schema has no such status: a snapshot that carried it would not
    pass the validators of a save. *)
Lemma past_due_is_not_a_status : "past_due" ∉ Snapshot.status_enum.
Proof.
  unfold Snapshot.status_enum. intros H.
  repeat (apply elem_of_cons in H as [H|H]; [discriminate|]).
  apply elem_of_nil in H. exact H.
Qed.

(** *** Saving a document *)




Lemma keep_unselected_verification (old u : User.t) :
  User.emailVerified (keep_unselected old u) = User.emailVerified u
  /\ User.emailVerificationToken (keep_unselected old u) = User.emailVerificationToken u
  /\ User.emailVerificationExpire (keep_unselected old u) = User.emailVerificationExpire u.
Proof. unfold keep_unselected. destruct (User.password u); auto. Qed.























(** ** Cancelling and disabling *)



(** Without an active ledger record the cancel is refused and changes
    nothing. *)
Lemma cancel_without_active_record (paystack : Paystack.gateway) (now : Date)
    (userId : ObjectId) (st : store) :
  find (active_of userId) (subscriptions st) = None ->
  cancelSubscription paystack now userId st
  = (Throw (JsError "Error" "Failed to cancel subscription"), st).
Proof.
  intros H. unfold cancelSubscription, Subscription_findOne_active. unfold_M.
  rewrite H. reflexivity.
Qed.




(** Esi is premium and has no ledger record: her cancel is refused and
    she stays premium. *)
Example cancel_without_ledger_record :
  cancelSubscription Demo.paystack 1701000600000 (User._id Demo.esi) Demo.store0
  = (Throw (JsError "Error" "Failed to cancel subscription"), Demo.store0)
  /\ snapshot_status (User._id Demo.esi) Demo.store0 = Some "premium".
Proof. split; [apply cancel_without_active_record|]; reflexivity. Qed.


(** ** Two writes, one after the other *)















(** ** The e-mail verification token *)









(** The round trip evaluated: the token is 40 hex digits, the stored
    value is its digest; the token is refused once the 24 hours are over,
    and so is any other token. *)
Example verification_evaluated :
  let generated := generateEmailVerificationToken 1701000000000 Demo.entropy Demo.kofi in
  let st1 := snd (User_save false (snd generated) Demo.store0) in
  fst generated = "11cb0558f083094da236be03d3622d7807ff4020"
  /\ User.emailVerificationToken <$> stored_user 2%N st1
     = Some (Some (sha256_hex "11cb0558f083094da236be03d3622d7807ff4020"))
  /\ fst (verifyEmail 1701003600000 (fst generated) st1)
     = Return (Json 200 (Message "Email verified successfully"))
  /\ fst (verifyEmail (1701000000000 + 24 * 60 * 60 * 1000) (fst generated) st1)
     = Return (Next (Some (ErrorResponse "Invalid or expired verification token" 400)))
  /\ fst (verifyEmail 1701003600000 "11cb0558f083094da236be03d3622d7807ff4021" st1)
     = Return (Next (Some (ErrorResponse "Invalid or expired verification token" 400))).
Proof. vm_compute. repeat split; reflexivity. Qed.

(** ** Redelivery of the other events *)

(** The handlers of [charge.success] and [subscription.disable] assign
    constants, so on Ama's account a second delivery finds nothing to
    write; this is not a marker check, and [subscription.create] above
    shows the difference. *)
Example charge_and_disable_delivered_twice :
  deliver [1701000700000; 1701000800000] "charge.success" Demo.stale_charge Demo.store0
  = deliver [1701000700000] "charge.success" Demo.stale_charge Demo.store0
  /\ deliver [1701000600000; 1701000900000] "subscription.disable" Demo.disable_event
       Demo.store0
     = deliver [1701000600000] "subscription.disable" Demo.disable_event Demo.store0.
Proof. vm_compute. split; reflexivity. Qed.

(* ===================================================================== *)
(** * Further properties of the code                                      *)
(* ===================================================================== *)

(** ** Phone numbers *)

Lemma append_cons (c : ascii) (a b : string) : String c a +:+ b = String c (a +:+ b).
Proof. reflexivity. Qed.

Lemma remove_non_digits_digits (s : string) : all_digits (remove_non_digits s) = true.
Proof.
  induction s as [|c s IH]; simpl; [reflexivity|].
  destruct (Json.is_digit c) eqn:E; simpl; [rewrite E|]; exact IH.
Qed.

Lemma remove_non_digits_of_digits (s : string) :
  all_digits s = true -> remove_non_digits s = s.
Proof.
  induction s as [|c s IH]; simpl; [reflexivity|].
  intros H. apply andb_true_iff in H as [Hc Hs]. rewrite Hc, (IH Hs). reflexivity.
Qed.

Lemma all_digits_substring_from (n : nat) (s : string) :
  all_digits s = true -> all_digits (substring_from n s) = true.
Proof.
  revert s. induction n as [|n IH]; intros [|c s]; simpl; auto.
  intros H. apply andb_true_iff in H as [_ Hs]. apply IH. exact Hs.
Qed.

Lemma prefix_split (p s : string) :
  String.prefix p s = true -> s = p +:+ substring_from (String.length p) s.
Proof.
  revert s. induction p as [|a p IH]; intros [|b s]; simpl; try reflexivity.
  - discriminate.
  - destruct (Ascii.ascii_dec a b) as [->|]; [|discriminate].
    intros H. rewrite append_cons, <- (IH s H). reflexivity.
Qed.

(** The shape of every result: the country code, then digits only. *)
Theorem formatPhoneNumber_country_code_then_digits :
  forall (phone : string),
    exists rest,
      formatPhoneNumber phone = "+233" +:+ rest /\ all_digits rest = true.
Proof.
  intros phone. unfold formatPhoneNumber.
  pose proof (remove_non_digits_digits phone) as Hd.
  set (cleaned := remove_non_digits phone) in *.
  destruct (String.prefix "233" cleaned) eqn:H233; simpl.
  - exists (substring_from 3 cleaned). split.
    + rewrite (prefix_split _ _ H233) at 1. reflexivity.
    + apply all_digits_substring_from. exact Hd.
  - destruct (String.prefix "0" cleaned) eqn:H0.
    + exists (substring_from 1 cleaned). split; [reflexivity|].
      apply all_digits_substring_from. exact Hd.
    + exists cleaned. split; [reflexivity | exact Hd].
Qed.

Lemma prefix_empty (s : string) : String.prefix "" s = true.
Proof. destruct s; reflexivity. Qed.

Lemma format_of_international (rest : string) :
  all_digits rest = true -> formatPhoneNumber ("+233" +:+ rest) = "+233" +:+ rest.
Proof.
  intros H. unfold formatPhoneNumber.
  assert (E : remove_non_digits ("+233" +:+ rest) = "233" +:+ rest).
  { unfold String.append. cbn. rewrite (remove_non_digits_of_digits _ H). reflexivity. }
  rewrite E. cbv [String.append]. cbn. rewrite prefix_empty. reflexivity.
Qed.

Lemma format_of_local (rest : string) :
  all_digits rest = true -> formatPhoneNumber ("0" +:+ rest) = "+233" +:+ rest.
Proof.
  intros H. unfold formatPhoneNumber.
  assert (E : remove_non_digits ("0" +:+ rest) = "0" +:+ rest).
  { unfold String.append. cbn. rewrite (remove_non_digits_of_digits _ H). reflexivity. }
  rewrite E. cbv [String.append]. cbn. rewrite prefix_empty. reflexivity.
Qed.

(** Formatting a formatted number changes nothing. *)
Theorem formatPhoneNumber_idempotent :
  forall (phone : string),
    formatPhoneNumber (formatPhoneNumber phone) = formatPhoneNumber phone.
Proof.
  intros phone.
  destruct (formatPhoneNumber_country_code_then_digits phone) as (rest & E & Hd).
  rewrite E. apply format_of_international. exact Hd.
Qed.

(** The local spelling (a leading 0) and the international spelling of a
    subscriber number are formatted to the same string. *)
Theorem formatPhoneNumber_local_and_international_agree :
  forall (subscriber : string),
    all_digits subscriber = true ->
    formatPhoneNumber ("0" +:+ subscriber) = "+233" +:+ subscriber
    /\ formatPhoneNumber ("+233" +:+ subscriber) = "+233" +:+ subscriber.
Proof.
  intros subscriber H. split; [apply format_of_local | apply format_of_international]; exact H.
Qed.

Lemma local_and_international_witness :
  formatPhoneNumber ("0" +:+ "241234567") = "+233" +:+ "241234567"
  /\ formatPhoneNumber ("+233" +:+ "241234567") = "+233" +:+ "241234567".
Proof.
  apply (formatPhoneNumber_local_and_international_agree "241234567"). reflexivity.
Defined.

(** A phone number that the schema of the user model accepts is
    formatted to the country code followed by its nine subscriber
    digits. *)
Theorem schema_phone_is_formatted_to_twelve_digits :
  forall (phone : string),
    ghana_phone phone = true ->
    exists subscriber,
      String.length subscriber = 9%nat
      /\ all_digits subscriber = true
      /\ (phone = "+233" +:+ subscriber \/ phone = "0" +:+ subscriber)
      /\ formatPhoneNumber phone = "+233" +:+ subscriber.
Proof.
  intros phone H. unfold ghana_phone in H.
  apply orb_true_iff in H as [H|H];
    apply andb_true_iff in H as [Hp H]; apply andb_true_iff in H as [Hlen Hd];
    apply Nat.eqb_eq in Hlen; apply prefix_split in Hp; simpl in Hp.
  - exists (substring_from 4 phone). repeat split; auto.
    rewrite Hp at 1. apply format_of_international. exact Hd.
  - exists (substring_from 1 phone). repeat split; auto.
    rewrite Hp at 1. apply format_of_local. exact Hd.
Qed.

Lemma schema_phone_witness :
  exists subscriber,
    String.length subscriber = 9%nat
    /\ all_digits subscriber = true
    /\ ("0241234567" = "+233" +:+ subscriber \/ "0241234567" = "0" +:+ subscriber)
    /\ formatPhoneNumber "0241234567" = "+233" +:+ subscriber.
Proof.
  apply (schema_phone_is_formatted_to_twelve_digits "0241234567"). reflexivity.
Defined.

(** Spaces, dashes and brackets are dropped; a number with neither a
    leading 0 nor the country code gets the country code; an empty input
    gives the bare country code. *)
Example formatPhoneNumber_examples :
  formatPhoneNumber "024 123-4567" = "+233241234567"
  /\ formatPhoneNumber "(+233) 24 123 4567" = "+233241234567"
  /\ formatPhoneNumber "241234567" = "+233241234567"
  /\ formatPhoneNumber "" = "+233".
Proof. repeat split; reflexivity. Qed.
